(** * Checkpoint coordination of the Kinesis client library worker

    A shallow embedding of [clientlibrary/worker/record-processor-checkpointer.go]
    and the properties of its checkpoint operations.

    The Go code mutates a [*par.ShardStatus] that the worker shares with its
    checkpointer, calls the lease ledger ([chk.Checkpointer]) and reads the
    wall clock.  The embedding threads an explicit [World] through every
    method: the heap of shard handles, the state of everything outside the
    worker, and the log of the ledger calls made so far.  A method either
    returns or panics (Go's nil dereference). *)

From stdpp Require Import base option numbers strings list gmap.

Local Open Scope Z_scope.

(** ** Values *)

(** A Go [error].  [ShutdownError] and [LeaseExpiredError] are the two package
    variables created by [errors.New]; every other error value comes from the
    ledger. *)
Inductive error : Type :=
  | ShutdownError
  | LeaseExpiredError
  | LedgerError (msg : string).

Global Instance error_eq_dec : EqDecision error.
Proof. solve_decision. Defined.

(** The run-time panics the code can raise. *)
Inductive panic : Type :=
  | NilDereference.

(** How a Go call ends. *)
Inductive outcome (A : Type) : Type :=
  | Returns (a : A)
  | Panics (p : panic).
Arguments Returns {A} a.
Arguments Panics {A} p.

(** [time.Time], as an instant in nanoseconds. *)
Definition Time : Type := Z.

(** [t.After(u)] *)
Definition Time_After (t u : Time) : bool := bool_decide (u < t).

(** Addresses of heap objects; a Go pointer is [option loc], [None] being nil. *)
Definition loc : Type := positive.

(** Modelled from the spec: the declaration of [par.ShardStatus] is not in the
    source file.  The Shard Ownership Handle has a shard identifier, the
    current owner identity, the lease expiry timestamp and the last checkpoint
    value; these are the fields the code reads ([ID], [AssignedTo],
    [LeaseTimeout]) and the one [SetCheckpoint] writes. *)
Record ShardStatus : Type := mkShardStatus {
  ID : string;
  AssignedTo : string;
  LeaseTimeout : Time;
  Checkpoint : string
}.

Global Instance ShardStatus_eq_dec : EqDecision ShardStatus.
Proof. solve_decision. Defined.

(** [kcl.ExtendedSequenceNumber]: a position, [SequenceNumber] being a
    [*string]. *)
Record ExtendedSequenceNumber : Type := mkExtendedSequenceNumber {
  SequenceNumber : option string;
  SubSequenceNumber : Z
}.

(** [aws.ToString]: the pointed-to string, the empty string for nil. *)
Definition aws_ToString (p : option string) : string :=
  match p with
  | Some s => s
  | None => ""
  end.

(** ** The lease ledger and the world *)

(** Modelled from the spec: the interface [chk.Checkpointer] is declared
    outside the source file.  The Lease Ledger contract is
    [GetLeaseOwner(shardID) -> (ownerIdentity, error)] and
    [CheckpointSequence(shardOwnershipHandle) -> error], which persists the
    handle's current checkpoint value.  Both are calls to an external store:
    they act on the outside state [Ext] and read the handle they are given. *)
Record Checkpointer (Ext : Type) : Type := mkCheckpointer {
  GetLeaseOwner : string -> Ext -> (string * option error) * Ext;
  CheckpointSequence : ShardStatus -> Ext -> option error * Ext
}.
Arguments GetLeaseOwner {Ext} _ _ _.
Arguments CheckpointSequence {Ext} _ _ _.

(** What the file imports from outside the repository's source: the constant
    [chk.ShardEnd] and the clock behind [time.Now]. *)
Class Imported (Ext : Type) : Type := {
  ShardEnd : string;
  time_Now : Ext -> Time * Ext
}.

(** A call to the ledger, as recorded in the world's log. *)
Inductive Event : Type :=
  | EvGetLeaseOwner (shardID : string)
  | EvCheckpointSequence (shard : ShardStatus).

Global Instance Event_eq_dec : EqDecision Event.
Proof. solve_decision. Defined.

(** The handles that a ledger was asked to persist, oldest first. *)
Definition persisted_handles (log : list Event) : list ShardStatus :=
  omap (fun ev => match ev with
                  | EvCheckpointSequence sh => Some sh
                  | EvGetLeaseOwner _ => None
                  end) log.

Record World (Ext : Type) : Type := mkWorld {
  heap : gmap loc ShardStatus;
  ext : Ext;
  calls : list Event
}.
Arguments mkWorld {Ext} _ _ _.
Arguments heap {Ext} _.
Arguments ext {Ext} _.
Arguments calls {Ext} _.

(** ** Go computations *)

Definition Go (Ext A : Type) : Type := World Ext -> outcome A * World Ext.

Definition ret {Ext A} (a : A) : Go Ext A := fun w => (Returns a, w).

Definition raise {Ext A} (p : panic) : Go Ext A := fun w => (Panics p, w).

Definition bind {Ext A B} (m : Go Ext A) (k : A -> Go Ext B) : Go Ext B :=
  fun w =>
    match m w with
    | (Returns a, w') => k a w'
    | (Panics p, w') => (Panics p, w')
    end.

Notation "'let*' x ':=' m 'in' k" := (bind m (fun x => k))
  (at level 10, x pattern, m at level 100, k at level 200).

(** Following a pointer or calling through an interface value: nil panics. *)
Definition deref {Ext A} (p : option A) : Go Ext A :=
  match p with
  | Some a => ret a
  | None => raise NilDereference
  end.

(** Reading the handle at an address. *)
Definition load {Ext} (l : loc) : Go Ext ShardStatus :=
  fun w => match heap w !! l with
           | Some sh => (Returns sh, w)
           | None => (Panics NilDereference, w)
           end.

Definition with_Checkpoint (c : string) (sh : ShardStatus) : ShardStatus :=
  mkShardStatus (ID sh) (AssignedTo sh) (LeaseTimeout sh) c.

(** Modelled from the spec: the method [SetCheckpoint] of [par.ShardStatus] is
    not in the source file; it updates the local checkpoint value of the
    handle, in place. *)
Definition SetCheckpoint {Ext} (l : loc) (c : string) : Go Ext unit :=
  fun w => match heap w !! l with
           | Some sh =>
               (Returns tt,
                mkWorld (<[l := with_Checkpoint c sh]> (heap w)) (ext w) (calls w))
           | None => (Panics NilDereference, w)
           end.

(** [time.Now()] *)
Definition Now {Ext} `{Imported Ext} : Go Ext Time :=
  fun w => let '(t, e) := time_Now (ext w) in
           (Returns t, mkWorld (heap w) e (calls w)).

(** [c.GetLeaseOwner(shardID)], logged. *)
Definition call_GetLeaseOwner {Ext} (c : Checkpointer Ext) (shardID : string)
  : Go Ext (string * option error) :=
  fun w => let '(r, e) := GetLeaseOwner c shardID (ext w) in
           (Returns r, mkWorld (heap w) e (calls w ++ [EvGetLeaseOwner shardID])).

(** [c.CheckpointSequence(shard)], logged with the handle as it is at the
    call. *)
Definition call_CheckpointSequence {Ext} (c : Checkpointer Ext) (l : loc)
  : Go Ext (option error) :=
  let* sh := load l in
  fun w => let '(r, e) := CheckpointSequence c sh (ext w) in
           (Returns r, mkWorld (heap w) e (calls w ++ [EvCheckpointSequence sh])).

(** ** The two structs and their methods *)

Record RecordProcessorCheckpointer (Ext : Type) : Type :=
  mkRecordProcessorCheckpointer {
    shard : option loc;
    checkpoint : option (Checkpointer Ext)
  }.
Arguments mkRecordProcessorCheckpointer {Ext} _ _.
Arguments shard {Ext} _.
Arguments checkpoint {Ext} _.

(** The field [checkpointer] has the interface type
    [kcl.IRecordProcessorCheckpointer]; [RecordProcessorCheckpointer] is its
    implementation in the package, and nil is [None]. *)
Record PreparedCheckpointer (Ext : Type) : Type := mkPreparedCheckpointer {
  pendingCheckpointSequenceNumber : option ExtendedSequenceNumber;
  checkpointer : option (RecordProcessorCheckpointer Ext)
}.
Arguments mkPreparedCheckpointer {Ext} _ _.
Arguments pendingCheckpointSequenceNumber {Ext} _.
Arguments checkpointer {Ext} _.

Definition NewRecordProcessorCheckpoint {Ext}
    (shard : option loc) (checkpoint : option (Checkpointer Ext))
  : RecordProcessorCheckpointer Ext :=
  mkRecordProcessorCheckpointer shard checkpoint.

Section Methods.
Context {Ext : Type} `{Imported Ext}.

(** [func (rc *RecordProcessorCheckpointer) Checkpoint(sequenceNumber *string) error] *)
Definition RecordProcessorCheckpointer_Checkpoint
    (rc : RecordProcessorCheckpointer Ext) (sequenceNumber : option string)
  : Go Ext (option error) :=
  let* l := deref (shard rc) in
  let* sh := load l in
  let* c := deref (checkpoint rc) in
  let* (currLeaseOwner, err) := call_GetLeaseOwner c (ID sh) in
  match err with
  | Some e => ret (Some e)
  | None =>
      let* sh := load l in
      if decide (AssignedTo sh <> currLeaseOwner) then ret (Some ShutdownError)
      else
        let* now := Now in
        let* sh := load l in
        if Time_After now (LeaseTimeout sh) then ret (Some LeaseExpiredError)
        else
          let* _ := match sequenceNumber with
                    | None => SetCheckpoint l ShardEnd
                    | Some _ => SetCheckpoint l (aws_ToString sequenceNumber)
                    end in
          call_CheckpointSequence c l
  end.

(** [func (rc *RecordProcessorCheckpointer) PrepareCheckpoint(_ *string)
    (kcl.IPreparedCheckpointer, error)]: the result is the address of a
    fresh, zero-valued [PreparedCheckpointer]. *)
Definition RecordProcessorCheckpointer_PrepareCheckpoint
    (rc : RecordProcessorCheckpointer Ext) (_ : option string)
  : Go Ext (PreparedCheckpointer Ext * option error) :=
  ret (mkPreparedCheckpointer None None, None).

(** [func (pc *PreparedCheckpointer) GetPendingCheckpoint() *kcl.ExtendedSequenceNumber] *)
Definition PreparedCheckpointer_GetPendingCheckpoint
    (pc : PreparedCheckpointer Ext) : Go Ext (option ExtendedSequenceNumber) :=
  ret (pendingCheckpointSequenceNumber pc).

(** [func (pc *PreparedCheckpointer) Checkpoint() error] *)
Definition PreparedCheckpointer_Checkpoint
    (pc : PreparedCheckpointer Ext) : Go Ext (option error) :=
  let* esn := deref (pendingCheckpointSequenceNumber pc) in
  let* c := deref (checkpointer pc) in
  RecordProcessorCheckpointer_Checkpoint c (SequenceNumber esn).

(** The value [Checkpoint] writes into the handle for a position. *)
Definition checkpoint_value (sequenceNumber : option string) : string :=
  match sequenceNumber with
  | None => ShardEnd
  | Some s => s
  end.

End Methods.

(** ** The deferred token as its documentation describes it

    The comment on [PreparedCheckpointer] says that its objects "are prepared
    to checkpoint at a specific sequence number" and "use an
    IRecordProcessorCheckpointer to do the actual checkpointing".  This is
    the constructor that comment describes: the token captures the position
    and the coordinator it came from.  The method of the source is
    [RecordProcessorCheckpointer_PrepareCheckpoint] above; the two are
    compared below. *)
Definition PrepareCheckpoint_documented {Ext}
    (rc : RecordProcessorCheckpointer Ext) (sequenceNumber : option string)
  : Go Ext (PreparedCheckpointer Ext * option error) :=
  ret (mkPreparedCheckpointer
         (Some (mkExtendedSequenceNumber sequenceNumber 0)) (Some rc),
       None).

(** ** An in-memory ledger

    A ledger kept in memory, with a settable clock and switches that make
    the owner query or the write fail.  The properties below hold for every
    ledger; this one supplies the concrete runs. *)
Module Mem.

Record Store : Type := mkStore {
  owners : gmap string string;
  persisted : gmap string string;
  clock : Time;
  queryFault : option error;
  persistFault : option error
}.

Definition getLeaseOwner (shardID : string) (s : Store)
  : (string * option error) * Store :=
  match queryFault s with
  | Some e => (("", Some e), s)
  | None => ((default "" (owners s !! shardID), None), s)
  end.

Definition checkpointSequence (sh : ShardStatus) (s : Store)
  : option error * Store :=
  match persistFault s with
  | Some e => (Some e, s)
  | None =>
      (None,
       mkStore (owners s) (<[ID sh := Checkpoint sh]> (persisted s))
               (clock s) (queryFault s) (persistFault s))
  end.

Definition ledger : Checkpointer Store :=
  mkCheckpointer Store getLeaseOwner checkpointSequence.

#[global] Instance imported : Imported Store := {
  ShardEnd := "SHARD_END";
  time_Now := fun s => (clock s, s)
}.

(** Shard [shardId-0], held by worker [W1] until instant 5000, nothing
    checkpointed yet. *)
Definition handle : ShardStatus := mkShardStatus "shardId-0" "W1" 5000 "".

Definition at_handle : loc := 1%positive.

Definition store (owner : string) (now : Time)
    (queryFault persistFault : option error) : Store :=
  mkStore {[ "shardId-0" := owner ]} ∅ now queryFault persistFault.

Definition world (owner : string) (now : Time)
    (queryFault persistFault : option error) : World Store :=
  mkWorld {[ at_handle := handle ]} (store owner now queryFault persistFault) [].

Definition rc : RecordProcessorCheckpointer Store :=
  NewRecordProcessorCheckpoint (Some at_handle) (Some ledger).

(** The checkpoint value of the handle after a run. *)
Definition checkpoint_after {A} (r : outcome A * World Store) : option string :=
  Checkpoint <$> (heap (snd r) !! at_handle).

End Mem.

(** * Properties *)

(** ** Running [Checkpoint] *)

(** One step of a Go computation: expose the monad, use the equations at
    hand, compute. *)
Ltac go_unfold :=
  unfold bind, ret, raise, deref, load, Now, SetCheckpoint,
    call_GetLeaseOwner, call_CheckpointSequence; cbn.

Section Runs.
Context {Ext : Type} `{Imported Ext}.

Variable rc : RecordProcessorCheckpointer Ext.
Variable l : loc.
Variable c : Checkpointer Ext.
Variable sh : ShardStatus.
Variable w : World Ext.

Hypothesis rc_shard : shard rc = Some l.
Hypothesis rc_checkpoint : checkpoint rc = Some c.
Hypothesis handle_at_l : heap w !! l = Some sh.

(** The owner query fails: its error is the result, nothing else happens. *)
Lemma Checkpoint_run_query_error p owner e x1 :
  GetLeaseOwner c (ID sh) (ext w) = ((owner, Some e), x1) ->
  RecordProcessorCheckpointer_Checkpoint rc p w =
    (Returns (Some e),
     mkWorld (heap w) x1 (calls w ++ [EvGetLeaseOwner (ID sh)])).
Proof.
  intros Hq. unfold RecordProcessorCheckpointer_Checkpoint. go_unfold.
  rewrite rc_shard; cbn. rewrite handle_at_l; cbn.
  rewrite rc_checkpoint; cbn. rewrite Hq; cbn. reflexivity.
Qed.

(** The ledger names another owner. *)
Lemma Checkpoint_run_other_owner p owner x1 :
  GetLeaseOwner c (ID sh) (ext w) = ((owner, None), x1) ->
  AssignedTo sh <> owner ->
  RecordProcessorCheckpointer_Checkpoint rc p w =
    (Returns (Some ShutdownError),
     mkWorld (heap w) x1 (calls w ++ [EvGetLeaseOwner (ID sh)])).
Proof.
  intros Hq Hne. unfold RecordProcessorCheckpointer_Checkpoint. go_unfold.
  rewrite rc_shard; cbn. rewrite handle_at_l; cbn.
  rewrite rc_checkpoint; cbn. rewrite Hq; cbn.
  rewrite handle_at_l; cbn.
  destruct (decide (AssignedTo sh <> owner)) as [_|Hn]; [reflexivity|].
  contradiction.
Qed.

(** The owner matches and the clock is past the lease timeout. *)
Lemma Checkpoint_run_expired p x1 now x2 :
  GetLeaseOwner c (ID sh) (ext w) = ((AssignedTo sh, None), x1) ->
  time_Now x1 = (now, x2) ->
  LeaseTimeout sh < now ->
  RecordProcessorCheckpointer_Checkpoint rc p w =
    (Returns (Some LeaseExpiredError),
     mkWorld (heap w) x2 (calls w ++ [EvGetLeaseOwner (ID sh)])).
Proof.
  intros Hq Hn Hlt. unfold RecordProcessorCheckpointer_Checkpoint. go_unfold.
  rewrite rc_shard; cbn. rewrite handle_at_l; cbn.
  rewrite rc_checkpoint; cbn. rewrite Hq; cbn.
  rewrite handle_at_l; cbn.
  destruct (decide (AssignedTo sh <> AssignedTo sh)) as [Hn'|_]; [congruence|].
  cbn. rewrite Hn; cbn. rewrite handle_at_l; cbn.
  unfold Time_After. rewrite bool_decide_eq_true_2 by assumption.
  reflexivity.
Qed.

(** The owner matches and the clock is not past the lease timeout: the
    handle is updated, then handed to the ledger, whose answer is the
    result. *)
Lemma Checkpoint_run_persist p x1 now x2 r x3 :
  GetLeaseOwner c (ID sh) (ext w) = ((AssignedTo sh, None), x1) ->
  time_Now x1 = (now, x2) ->
  now <= LeaseTimeout sh ->
  CheckpointSequence c (with_Checkpoint (checkpoint_value p) sh) x2 = (r, x3) ->
  RecordProcessorCheckpointer_Checkpoint rc p w =
    (Returns r,
     mkWorld (<[l := with_Checkpoint (checkpoint_value p) sh]> (heap w)) x3
       (calls w ++ [EvGetLeaseOwner (ID sh);
                    EvCheckpointSequence
                      (with_Checkpoint (checkpoint_value p) sh)])).
Proof.
  intros Hq Hn Hle Hp. unfold RecordProcessorCheckpointer_Checkpoint. go_unfold.
  rewrite rc_shard; cbn. rewrite handle_at_l; cbn.
  rewrite rc_checkpoint; cbn. rewrite Hq; cbn.
  rewrite handle_at_l; cbn.
  destruct (decide (AssignedTo sh <> AssignedTo sh)) as [Hn'|_]; [congruence|].
  cbn. rewrite Hn; cbn. rewrite handle_at_l; cbn.
  unfold Time_After. rewrite bool_decide_eq_false_2 by lia.
  destruct p as [s|]; cbn in *; rewrite handle_at_l; cbn; go_unfold;
    rewrite lookup_insert_eq; cbn; rewrite Hp; cbn;
    rewrite <- app_assoc; reflexivity.
Qed.

End Runs.

(** ** The ledger log *)

Lemma persisted_handles_app (log1 log2 : list Event) :
  persisted_handles (log1 ++ log2) =
  persisted_handles log1 ++ persisted_handles log2.
Proof. unfold persisted_handles. apply omap_app. Qed.

Lemma persisted_handles_query (log : list Event) (shardID : string) :
  persisted_handles (log ++ [EvGetLeaseOwner shardID]) = persisted_handles log.
Proof. rewrite persisted_handles_app. cbn. apply app_nil_r. Qed.

Lemma persisted_handles_query_persist
    (log : list Event) (shardID : string) (sh : ShardStatus) :
  persisted_handles (log ++ [EvGetLeaseOwner shardID; EvCheckpointSequence sh]) =
  persisted_handles log ++ [sh].
Proof. rewrite persisted_handles_app. reflexivity. Qed.

(** ** The deferred token *)

Section Token.
Context {Ext : Type} `{Imported Ext}.

Lemma PrepareCheckpoint_run
    (rc : RecordProcessorCheckpointer Ext) (p : option string) (w : World Ext) :
  RecordProcessorCheckpointer_PrepareCheckpoint rc p w =
    (Returns (mkPreparedCheckpointer None None, None), w).
Proof. reflexivity. Qed.

Lemma Checkpoint_of_zero_token_run (w : World Ext) :
  PreparedCheckpointer_Checkpoint (mkPreparedCheckpointer None None) w =
    (Panics NilDereference, w).
Proof. reflexivity. Qed.

(** With the token its documentation describes, redeeming the token is the
    direct checkpoint at the pinned position, in every world: the method
    [Checkpoint] of the token defers to the coordinator as documented, and
    what is missing is the construction of the token. *)
Lemma Checkpoint_of_documented_token
    (rc : RecordProcessorCheckpointer Ext) (p : option string)
    (w : World Ext) :
  exists tok,
    PrepareCheckpoint_documented rc p w = (Returns (tok, None), w) /\
    fst (PreparedCheckpointer_GetPendingCheckpoint tok w) =
      Returns (Some (mkExtendedSequenceNumber p 0)) /\
    forall w', PreparedCheckpointer_Checkpoint tok w' =
               RecordProcessorCheckpointer_Checkpoint rc p w'.
Proof.
  eexists. split; [reflexivity|]. split; [reflexivity|].
  intros w'. unfold PreparedCheckpointer_Checkpoint. go_unfold.
  destruct (RecordProcessorCheckpointer_Checkpoint rc p w') as [[r|q] w''];
    reflexivity.
Qed.

(** C3: for every position [p] and every world, [PrepareCheckpoint] returns
    a token whose [pendingCheckpointSequenceNumber] and [checkpointer] are
    both nil, and in every world the token's [Checkpoint()] panics with a
    nil dereference and leaves the world as it was: it neither succeeds
    nor returns an error.  The nil position is what stops it first; with a
    position in place the call through the nil [checkpointer] would panic
    in the same way. *)
Theorem Checkpoint_of_prepared_token_panics
    (rc : RecordProcessorCheckpointer Ext) (p : option string)
    (w : World Ext) :
  exists tok,
    RecordProcessorCheckpointer_PrepareCheckpoint rc p w =
      (Returns (tok, None), w) /\
    pendingCheckpointSequenceNumber tok = None /\
    checkpointer tok = None /\
    forall w',
      PreparedCheckpointer_Checkpoint tok w' = (Panics NilDereference, w') /\
      (forall r : option error,
         fst (PreparedCheckpointer_Checkpoint tok w') <> Returns r) /\
      forall esn : ExtendedSequenceNumber,
        PreparedCheckpointer_Checkpoint
          (mkPreparedCheckpointer (Some esn) (checkpointer tok)) w' =
          (Panics NilDereference, w').
Proof.
  exists (mkPreparedCheckpointer None None).
  split; [apply PrepareCheckpoint_run|].
  split; [reflexivity|]. split; [reflexivity|].
  intros w'. rewrite Checkpoint_of_zero_token_run.
  split; [reflexivity|]. split; [intros r; discriminate|].
  intros esn. reflexivity.
Qed.

End Token.

(** ** The coordinator *)

Section Coordinator.
Context {Ext : Type} `{Imported Ext}.

(** C4: when the owner query succeeds with the owner cached in the handle,
    the lease timeout is after the current time and the ledger's write
    succeeds, [Checkpoint(p)] returns nil and the handle's checkpoint value
    is [p] afterwards. *)
Theorem Checkpoint_succeeds_and_sets_position
    (rc : RecordProcessorCheckpointer Ext) (l : loc) (c : Checkpointer Ext)
    (sh : ShardStatus) (w : World Ext) (p owner : string)
    (now : Time) (x1 x2 x3 : Ext) :
  shard rc = Some l ->
  checkpoint rc = Some c ->
  heap w !! l = Some sh ->
  GetLeaseOwner c (ID sh) (ext w) = ((owner, None), x1) ->
  owner = AssignedTo sh ->
  time_Now x1 = (now, x2) ->
  now < LeaseTimeout sh ->
  CheckpointSequence c (with_Checkpoint p sh) x2 = (None, x3) ->
  exists w',
    RecordProcessorCheckpointer_Checkpoint rc (Some p) w = (Returns None, w') /\
    Checkpoint <$> (heap w' !! l) = Some p.
Proof.
  intros Hs Hc Hl Hq -> Hn Hlt Hp.
  eexists. split.
  - apply (Checkpoint_run_persist rc l c sh w Hs Hc Hl (Some p) x1 now x2 None x3);
      [assumption | assumption | lia | exact Hp].
  - cbn. rewrite lookup_insert_eq. reflexivity.
Qed.

(** C5: when the owner query succeeds with an owner other than the one
    cached in the handle, whatever the clock says, [Checkpoint(p)] returns
    [ShutdownError]; the only ledger call is the owner query, so nothing is
    persisted, and the handle is unchanged. *)
Theorem Checkpoint_Shutdown_on_other_owner
    (rc : RecordProcessorCheckpointer Ext) (l : loc) (c : Checkpointer Ext)
    (sh : ShardStatus) (w : World Ext) (p : option string) (owner : string)
    (x1 : Ext) :
  shard rc = Some l ->
  checkpoint rc = Some c ->
  heap w !! l = Some sh ->
  GetLeaseOwner c (ID sh) (ext w) = ((owner, None), x1) ->
  owner <> AssignedTo sh ->
  exists w',
    RecordProcessorCheckpointer_Checkpoint rc p w =
      (Returns (Some ShutdownError), w') /\
    calls w' = calls w ++ [EvGetLeaseOwner (ID sh)] /\
    persisted_handles (calls w') = persisted_handles (calls w) /\
    heap w' = heap w.
Proof.
  intros Hs Hc Hl Hq Hne.
  eexists. split.
  - apply (Checkpoint_run_other_owner rc l c sh w Hs Hc Hl p owner x1 Hq).
    congruence.
  - cbn. split; [reflexivity|]. split; [|reflexivity].
    apply persisted_handles_query.
Qed.

(** C6, amended: when the owner query succeeds with the cached owner and
    the lease timeout is strictly before the current time,
    [Checkpoint(p)] returns [LeaseExpiredError]; the only ledger call is
    the owner query, so nothing is persisted, and the handle is
    unchanged.  When the lease timeout is exactly the current time, the
    lease still counts as valid and the checkpoint proceeds: the handle is
    updated, the ledger is asked to persist it, and the answer of that
    write is the result. *)
Theorem Checkpoint_LeaseExpired_strictly_after_timeout
    (rc : RecordProcessorCheckpointer Ext) (l : loc) (c : Checkpointer Ext)
    (sh : ShardStatus) (w : World Ext) (p : option string) (owner : string)
    (now : Time) (x1 x2 : Ext) :
  shard rc = Some l ->
  checkpoint rc = Some c ->
  heap w !! l = Some sh ->
  GetLeaseOwner c (ID sh) (ext w) = ((owner, None), x1) ->
  owner = AssignedTo sh ->
  time_Now x1 = (now, x2) ->
  (LeaseTimeout sh < now ->
   exists w',
     RecordProcessorCheckpointer_Checkpoint rc p w =
       (Returns (Some LeaseExpiredError), w') /\
     calls w' = calls w ++ [EvGetLeaseOwner (ID sh)] /\
     persisted_handles (calls w') = persisted_handles (calls w) /\
     heap w' = heap w) /\
  (LeaseTimeout sh = now ->
   forall (r : option error) (x3 : Ext),
     CheckpointSequence c (with_Checkpoint (checkpoint_value p) sh) x2 =
       (r, x3) ->
     exists w',
       RecordProcessorCheckpointer_Checkpoint rc p w = (Returns r, w') /\
       heap w' !! l = Some (with_Checkpoint (checkpoint_value p) sh) /\
       persisted_handles (calls w') =
         persisted_handles (calls w) ++
         [with_Checkpoint (checkpoint_value p) sh]).
Proof.
  intros Hs Hc Hl Hq -> Hn. split.
  - intros Hlt. eexists. split.
    + apply (Checkpoint_run_expired rc l c sh w Hs Hc Hl p x1 now x2 Hq Hn Hlt).
    + cbn. split; [reflexivity|]. split; [|reflexivity].
      apply persisted_handles_query.
  - intros Heq r x3 Hp. eexists. split.
    + apply (Checkpoint_run_persist rc l c sh w Hs Hc Hl p x1 now x2 r x3);
        [assumption | assumption | lia | exact Hp].
    + cbn. split; [apply lookup_insert_eq|].
      apply persisted_handles_query_persist.
Qed.

(** C7: for every error [e], when the ledger's owner query returns [e],
    [Checkpoint(p)] returns that same [e]; the only ledger call is the
    owner query, so nothing is persisted, and the handle is unchanged. *)
Theorem Checkpoint_returns_query_error
    (rc : RecordProcessorCheckpointer Ext) (l : loc) (c : Checkpointer Ext)
    (sh : ShardStatus) (w : World Ext) (p : option string) (owner : string)
    (e : error) (x1 : Ext) :
  shard rc = Some l ->
  checkpoint rc = Some c ->
  heap w !! l = Some sh ->
  GetLeaseOwner c (ID sh) (ext w) = ((owner, Some e), x1) ->
  exists w',
    RecordProcessorCheckpointer_Checkpoint rc p w = (Returns (Some e), w') /\
    calls w' = calls w ++ [EvGetLeaseOwner (ID sh)] /\
    persisted_handles (calls w') = persisted_handles (calls w) /\
    heap w' = heap w.
Proof.
  intros Hs Hc Hl Hq.
  eexists. split.
  - apply (Checkpoint_run_query_error rc l c sh w Hs Hc Hl p owner e x1 Hq).
  - cbn. split; [reflexivity|]. split; [|reflexivity].
    apply persisted_handles_query.
Qed.

(** C8: when the owner check and the lease check pass, the handle's
    checkpoint value is set (to [p], or to [ShardEnd] for a nil position)
    before the ledger's write is attempted: the write is given the handle
    already updated, and whatever the write answers, an error included,
    is returned with the handle left updated. *)
Theorem Checkpoint_updates_handle_before_persist
    (rc : RecordProcessorCheckpointer Ext) (l : loc) (c : Checkpointer Ext)
    (sh : ShardStatus) (w : World Ext) (p : option string) (owner : string)
    (now : Time) (x1 x2 x3 : Ext) (r : option error) :
  shard rc = Some l ->
  checkpoint rc = Some c ->
  heap w !! l = Some sh ->
  GetLeaseOwner c (ID sh) (ext w) = ((owner, None), x1) ->
  owner = AssignedTo sh ->
  time_Now x1 = (now, x2) ->
  Time_After now (LeaseTimeout sh) = false ->
  CheckpointSequence c (with_Checkpoint (checkpoint_value p) sh) x2 = (r, x3) ->
  exists w',
    RecordProcessorCheckpointer_Checkpoint rc p w = (Returns r, w') /\
    heap w' !! l = Some (with_Checkpoint (checkpoint_value p) sh) /\
    calls w' =
      calls w ++ [EvGetLeaseOwner (ID sh);
                  EvCheckpointSequence (with_Checkpoint (checkpoint_value p) sh)].
Proof.
  intros Hs Hc Hl Hq -> Hn Hafter Hp.
  unfold Time_After in Hafter. apply bool_decide_eq_false_1 in Hafter.
  eexists. split.
  - apply (Checkpoint_run_persist rc l c sh w Hs Hc Hl p x1 now x2 r x3);
      [assumption | assumption | lia | exact Hp].
  - cbn. split; [apply lookup_insert_eq | reflexivity].
Qed.

(** A concrete position that spells the [ShardEnd] string is treated as
    the nil position is, in every world and whatever the constant is. *)
Lemma Checkpoint_of_ShardEnd_string
    (rc : RecordProcessorCheckpointer Ext) (w : World Ext) :
  RecordProcessorCheckpointer_Checkpoint rc (Some ShardEnd) w =
  RecordProcessorCheckpointer_Checkpoint rc None w.
Proof. reflexivity. Qed.

(** C9, amended: when the owner check and the lease check pass,
    [Checkpoint(nil)] sets the handle's checkpoint value to the [ShardEnd]
    string and then hands the handle, so updated, to the ledger's write,
    whose answer it returns.  From the same world [Checkpoint] of a
    concrete position [s] other than the [ShardEnd] string leaves the
    value [s], which differs from the one left for nil. *)
Theorem Checkpoint_nil_sets_ShardEnd_and_persists
    (rc : RecordProcessorCheckpointer Ext) (l : loc) (c : Checkpointer Ext)
    (sh : ShardStatus) (w : World Ext) (owner : string)
    (now : Time) (x1 x2 x3 : Ext) (r : option error) :
  shard rc = Some l ->
  checkpoint rc = Some c ->
  heap w !! l = Some sh ->
  GetLeaseOwner c (ID sh) (ext w) = ((owner, None), x1) ->
  owner = AssignedTo sh ->
  time_Now x1 = (now, x2) ->
  Time_After now (LeaseTimeout sh) = false ->
  CheckpointSequence c (with_Checkpoint ShardEnd sh) x2 = (r, x3) ->
  exists w',
    RecordProcessorCheckpointer_Checkpoint rc None w = (Returns r, w') /\
    Checkpoint <$> (heap w' !! l) = Some ShardEnd /\
    persisted_handles (calls w') =
      persisted_handles (calls w) ++ [with_Checkpoint ShardEnd sh] /\
    forall s : string,
      s <> ShardEnd ->
      Checkpoint <$>
        (heap (snd (RecordProcessorCheckpointer_Checkpoint rc (Some s) w)) !! l)
      = Some s /\
      heap (snd (RecordProcessorCheckpointer_Checkpoint rc (Some s) w)) !! l
      <> heap w' !! l.
Proof.
  intros Hs Hc Hl Hq -> Hn Hafter Hp.
  unfold Time_After in Hafter. apply bool_decide_eq_false_1 in Hafter.
  eexists. split.
  - apply (Checkpoint_run_persist rc l c sh w Hs Hc Hl None x1 now x2 r x3);
      [assumption | assumption | lia | exact Hp].
  - cbn. rewrite lookup_insert_eq. split; [reflexivity|].
    split; [apply persisted_handles_query_persist|].
    intros s Hne.
    destruct (CheckpointSequence c (with_Checkpoint s sh) x2) as [r' x3'] eqn:Hp'.
    rewrite (Checkpoint_run_persist rc l c sh w Hs Hc Hl (Some s) x1 now x2 r' x3')
      by (assumption || lia).
    cbn. rewrite lookup_insert_eq. split; [reflexivity|].
    intros Heq. apply Hne. injection Heq as Heq. exact Heq.
Qed.

(** C10: two calls of [Checkpoint(p)] in immediate succession, the ledger
    answering the cached owner at both owner queries, the lease timeout
    after the current time at both calls and both writes succeeding, both
    return nil, and after each of them the handle's checkpoint value is
    [p]. *)
Theorem Checkpoint_twice_succeeds_twice
    (rc : RecordProcessorCheckpointer Ext) (l : loc) (c : Checkpointer Ext)
    (sh : ShardStatus) (w : World Ext) (p : string)
    (now1 now2 : Time) (x1 x2 x3 x4 x5 x6 : Ext) :
  shard rc = Some l ->
  checkpoint rc = Some c ->
  heap w !! l = Some sh ->
  GetLeaseOwner c (ID sh) (ext w) = ((AssignedTo sh, None), x1) ->
  time_Now x1 = (now1, x2) ->
  now1 < LeaseTimeout sh ->
  CheckpointSequence c (with_Checkpoint p sh) x2 = (None, x3) ->
  GetLeaseOwner c (ID sh) x3 = ((AssignedTo sh, None), x4) ->
  time_Now x4 = (now2, x5) ->
  now2 < LeaseTimeout sh ->
  CheckpointSequence c (with_Checkpoint p sh) x5 = (None, x6) ->
  exists w1 w2,
    RecordProcessorCheckpointer_Checkpoint rc (Some p) w = (Returns None, w1) /\
    Checkpoint <$> (heap w1 !! l) = Some p /\
    RecordProcessorCheckpointer_Checkpoint rc (Some p) w1 = (Returns None, w2) /\
    Checkpoint <$> (heap w2 !! l) = Some p.
Proof.
  intros Hs Hc Hl Hq1 Hn1 Hlt1 Hp1 Hq2 Hn2 Hlt2 Hp2.
  eexists. eexists. split.
  - apply (Checkpoint_run_persist rc l c sh w Hs Hc Hl (Some p) x1 now1 x2 None x3);
      [assumption | assumption | lia | exact Hp1].
  - split; [cbn; rewrite lookup_insert_eq; reflexivity|].
    split.
    + apply (Checkpoint_run_persist rc l c (with_Checkpoint p sh) _ Hs Hc
               (lookup_insert_eq _ _ _) (Some p) x4 now2 x5 None x6);
        cbn; [assumption | assumption | lia | exact Hp2].
    + cbn. rewrite lookup_insert_eq. reflexivity.
Qed.

End Coordinator.

(** ** Runs on the in-memory ledger

    Worker [W1] holds shard [shardId-0] until instant 5000 and checkpoints at
    position 49590. *)

(** C1, on the code: with owner and lease valid, the direct [Checkpoint] at
    position 49590 returns nil and leaves 49590 in the handle, while
    [Checkpoint()] on the token that [PrepareCheckpoint] returned for 49590
    panics with a nil dereference and leaves the handle as it was.
    [PrepareCheckpoint] itself leaves the world, ledger log included,
    untouched and returns no error. *)
Theorem Checkpoint_of_prepared_token_differs_from_Checkpoint :
  let w := Mem.world "W1" 0 None None in
  exists tok,
    RecordProcessorCheckpointer_PrepareCheckpoint Mem.rc (Some "49590") w =
      (Returns (tok, None), w) /\
    fst (RecordProcessorCheckpointer_Checkpoint Mem.rc (Some "49590") w) =
      Returns None /\
    Mem.checkpoint_after
      (RecordProcessorCheckpointer_Checkpoint Mem.rc (Some "49590") w) =
      Some "49590" /\
    PreparedCheckpointer_Checkpoint tok w = (Panics NilDereference, w) /\
    Mem.checkpoint_after (PreparedCheckpointer_Checkpoint tok w) = Some "".
Proof.
  intros w. eexists. split; [reflexivity|]. vm_compute. repeat split.
Qed.

(** C2, on the code: the token that [PrepareCheckpoint] returns for position
    49590 holds neither the position nor the coordinator:
    [GetPendingCheckpoint()] returns nil, not the extended sequence number of
    49590, and the [checkpointer] field is nil.  [GetPendingCheckpoint()]
    leaves the world as it was. *)
Theorem PrepareCheckpoint_drops_position_and_coordinator :
  let w := Mem.world "W1" 0 None None in
  exists tok,
    RecordProcessorCheckpointer_PrepareCheckpoint Mem.rc (Some "49590") w =
      (Returns (tok, None), w) /\
    PreparedCheckpointer_GetPendingCheckpoint tok w = (Returns None, w) /\
    fst (PreparedCheckpointer_GetPendingCheckpoint tok w) <>
      Returns (Some (mkExtendedSequenceNumber (Some "49590") 0)) /\
    checkpointer tok = None.
Proof.
  intros w. eexists. split; [reflexivity|].
  split; [reflexivity|]. split; [discriminate | reflexivity].
Qed.

(** C6 as stated fails when the lease timeout equals the current time: the
    owner query succeeds with the cached owner, the timeout 5000 is at the
    current time 5000, and [Checkpoint] does not return [LeaseExpiredError]:
    it updates the handle, has the ledger persist it and returns nil. *)
Lemma Checkpoint_at_timeout_instant_persists :
  let w := Mem.world "W1" 5000 None None in
  shard Mem.rc = Some Mem.at_handle /\
  checkpoint Mem.rc = Some Mem.ledger /\
  heap w !! Mem.at_handle = Some Mem.handle /\
  GetLeaseOwner Mem.ledger (ID Mem.handle) (ext w) =
    ((AssignedTo Mem.handle, None), ext w) /\
  time_Now (ext w) = (5000, ext w) /\
  LeaseTimeout Mem.handle <= 5000 /\
  fst (RecordProcessorCheckpointer_Checkpoint Mem.rc (Some "49590") w) =
    Returns None /\
  fst (RecordProcessorCheckpointer_Checkpoint Mem.rc (Some "49590") w) <>
    Returns (Some LeaseExpiredError) /\
  persisted_handles
    (calls (snd (RecordProcessorCheckpointer_Checkpoint Mem.rc (Some "49590") w))) =
    [with_Checkpoint "49590" Mem.handle].
Proof.
  intros w. vm_compute. repeat split; discriminate.
Qed.

(** C9 as stated fails for the position string that spells the sentinel:
    with owner and lease valid, [Checkpoint] of the concrete position
    [SHARD_END] and [Checkpoint(nil)] leave the same checkpoint value in the
    handle, and the same world.  The sentinel is a string like the
    positions, so the same happens whatever string the constant is. *)
Lemma Checkpoint_of_sentinel_string_equals_Checkpoint_nil :
  let w := Mem.world "W1" 0 None None in
  fst (RecordProcessorCheckpointer_Checkpoint Mem.rc None w) = Returns None /\
  persisted_handles
    (calls (snd (RecordProcessorCheckpointer_Checkpoint Mem.rc None w))) =
    [with_Checkpoint ShardEnd Mem.handle] /\
  Mem.checkpoint_after (RecordProcessorCheckpointer_Checkpoint Mem.rc None w) =
    Some ShardEnd /\
  Mem.checkpoint_after
    (RecordProcessorCheckpointer_Checkpoint Mem.rc (Some "SHARD_END") w) =
    Some ShardEnd /\
  RecordProcessorCheckpointer_Checkpoint Mem.rc (Some "SHARD_END") w =
    RecordProcessorCheckpointer_Checkpoint Mem.rc None w.
Proof.
  intros w. vm_compute. repeat split.
Qed.

(** The store after the in-memory ledger has persisted a handle. *)
Lemma Mem_checkpointSequence_ok (sh : ShardStatus) (s : Mem.Store) :
  Mem.persistFault s = None ->
  CheckpointSequence Mem.ledger sh s =
    (None, snd (Mem.checkpointSequence sh s)).
Proof.
  intros Hok. cbn. unfold Mem.checkpointSequence. rewrite Hok. reflexivity.
Defined.

(** Owner [W1], time 0, timeout 5000, position 49590: success. *)
Lemma Checkpoint_succeeds_and_sets_position_witness :
  exists w',
    RecordProcessorCheckpointer_Checkpoint Mem.rc (Some "49590")
      (Mem.world "W1" 0 None None) = (Returns None, w') /\
    Checkpoint <$> (heap w' !! Mem.at_handle) = Some "49590".
Proof.
  apply (Checkpoint_succeeds_and_sets_position
           Mem.rc Mem.at_handle Mem.ledger Mem.handle
           (Mem.world "W1" 0 None None) "49590" "W1" 0
           (Mem.store "W1" 0 None None) (Mem.store "W1" 0 None None)
           (snd (Mem.checkpointSequence (with_Checkpoint "49590" Mem.handle)
                   (Mem.store "W1" 0 None None)))).
  - reflexivity.
  - reflexivity.
  - vm_compute; reflexivity.
  - vm_compute; reflexivity.
  - reflexivity.
  - reflexivity.
  - reflexivity.
  - apply Mem_checkpointSequence_ok. reflexivity.
Defined.

(** The ledger names [W2], the handle [W1]: shutdown. *)
Lemma Checkpoint_Shutdown_on_other_owner_witness :
  exists w',
    RecordProcessorCheckpointer_Checkpoint Mem.rc (Some "49590")
      (Mem.world "W2" 0 None None) = (Returns (Some ShutdownError), w') /\
    calls w' = [EvGetLeaseOwner "shardId-0"] /\
    persisted_handles (calls w') = [] /\
    heap w' = heap (Mem.world "W2" 0 None None).
Proof.
  apply (Checkpoint_Shutdown_on_other_owner
           Mem.rc Mem.at_handle Mem.ledger Mem.handle
           (Mem.world "W2" 0 None None) (Some "49590") "W2"
           (Mem.store "W2" 0 None None)).
  - reflexivity.
  - reflexivity.
  - vm_compute; reflexivity.
  - vm_compute; reflexivity.
  - discriminate.
Defined.

(** Time 5001, timeout 5000: the lease has expired.  Time 5000: it has
    not, and position 49590 is persisted. *)
Lemma Checkpoint_LeaseExpired_strictly_after_timeout_witness :
  (exists w',
     RecordProcessorCheckpointer_Checkpoint Mem.rc (Some "49590")
       (Mem.world "W1" 5001 None None) =
       (Returns (Some LeaseExpiredError), w') /\
     calls w' =
       calls (Mem.world "W1" 5001 None None) ++
       [EvGetLeaseOwner (ID Mem.handle)] /\
     persisted_handles (calls w') =
       persisted_handles (calls (Mem.world "W1" 5001 None None)) /\
     heap w' = heap (Mem.world "W1" 5001 None None)) /\
  (exists w',
     RecordProcessorCheckpointer_Checkpoint Mem.rc (Some "49590")
       (Mem.world "W1" 5000 None None) = (Returns None, w') /\
     heap w' !! Mem.at_handle =
       Some (with_Checkpoint (checkpoint_value (Some "49590")) Mem.handle) /\
     persisted_handles (calls w') =
       persisted_handles (calls (Mem.world "W1" 5000 None None)) ++
       [with_Checkpoint (checkpoint_value (Some "49590")) Mem.handle]).
Proof.
  split.
  - refine (proj1 (Checkpoint_LeaseExpired_strictly_after_timeout
                     Mem.rc Mem.at_handle Mem.ledger Mem.handle
                     (Mem.world "W1" 5001 None None) (Some "49590") "W1" 5001
                     (Mem.store "W1" 5001 None None)
                     (Mem.store "W1" 5001 None None) _ _ _ _ _ _) _);
      first [reflexivity | vm_compute; reflexivity].
  - refine (proj2 (Checkpoint_LeaseExpired_strictly_after_timeout
                     Mem.rc Mem.at_handle Mem.ledger Mem.handle
                     (Mem.world "W1" 5000 None None) (Some "49590") "W1" 5000
                     (Mem.store "W1" 5000 None None)
                     (Mem.store "W1" 5000 None None) _ _ _ _ _ _) _ None
                  (snd (Mem.checkpointSequence
                          (with_Checkpoint "49590" Mem.handle)
                          (Mem.store "W1" 5000 None None))) _);
      first [reflexivity | vm_compute; reflexivity].
Defined.

(** The owner query fails with a ledger error. *)
Lemma Checkpoint_returns_query_error_witness :
  exists w',
    RecordProcessorCheckpointer_Checkpoint Mem.rc (Some "49590")
      (Mem.world "W1" 0 (Some (LedgerError "store unavailable")) None) =
      (Returns (Some (LedgerError "store unavailable")), w') /\
    calls w' = [EvGetLeaseOwner "shardId-0"] /\
    persisted_handles (calls w') = [] /\
    heap w' =
      heap (Mem.world "W1" 0 (Some (LedgerError "store unavailable")) None).
Proof.
  apply (Checkpoint_returns_query_error
           Mem.rc Mem.at_handle Mem.ledger Mem.handle
           (Mem.world "W1" 0 (Some (LedgerError "store unavailable")) None)
           (Some "49590") ""
           (LedgerError "store unavailable")
           (Mem.store "W1" 0 (Some (LedgerError "store unavailable")) None)).
  - reflexivity.
  - reflexivity.
  - vm_compute; reflexivity.
  - reflexivity.
Defined.

(** The checks pass and the write fails: the error is returned and the
    handle holds 49590 all the same. *)
Lemma Checkpoint_updates_handle_before_persist_witness :
  exists w',
    RecordProcessorCheckpointer_Checkpoint Mem.rc (Some "49590")
      (Mem.world "W1" 0 None (Some (LedgerError "write rejected"))) =
      (Returns (Some (LedgerError "write rejected")), w') /\
    heap w' !! Mem.at_handle = Some (with_Checkpoint "49590" Mem.handle) /\
    calls w' =
      [EvGetLeaseOwner "shardId-0";
       EvCheckpointSequence (with_Checkpoint "49590" Mem.handle)].
Proof.
  apply (Checkpoint_updates_handle_before_persist
           Mem.rc Mem.at_handle Mem.ledger Mem.handle
           (Mem.world "W1" 0 None (Some (LedgerError "write rejected")))
           (Some "49590") "W1" 0
           (Mem.store "W1" 0 None (Some (LedgerError "write rejected")))
           (Mem.store "W1" 0 None (Some (LedgerError "write rejected")))
           (Mem.store "W1" 0 None (Some (LedgerError "write rejected")))
           (Some (LedgerError "write rejected"))).
  - reflexivity.
  - reflexivity.
  - vm_compute; reflexivity.
  - vm_compute; reflexivity.
  - reflexivity.
  - reflexivity.
  - reflexivity.
  - reflexivity.
Defined.

(** A nil position on a valid lease: the handle holds the sentinel, and
    position 49590 would have left another value. *)
Lemma Checkpoint_nil_sets_ShardEnd_and_persists_witness :
  exists w',
    RecordProcessorCheckpointer_Checkpoint Mem.rc None
      (Mem.world "W1" 0 None None) = (Returns None, w') /\
    Checkpoint <$> (heap w' !! Mem.at_handle) = Some ShardEnd /\
    persisted_handles (calls w') =
      persisted_handles (calls (Mem.world "W1" 0 None None)) ++
      [with_Checkpoint ShardEnd Mem.handle] /\
    forall s : string,
      s <> ShardEnd ->
      Checkpoint <$>
        (heap (snd (RecordProcessorCheckpointer_Checkpoint Mem.rc (Some s)
                      (Mem.world "W1" 0 None None))) !! Mem.at_handle)
      = Some s /\
      heap (snd (RecordProcessorCheckpointer_Checkpoint Mem.rc (Some s)
                   (Mem.world "W1" 0 None None))) !! Mem.at_handle
      <> heap w' !! Mem.at_handle.
Proof.
  apply (Checkpoint_nil_sets_ShardEnd_and_persists
           Mem.rc Mem.at_handle Mem.ledger Mem.handle
           (Mem.world "W1" 0 None None) "W1" 0
           (Mem.store "W1" 0 None None) (Mem.store "W1" 0 None None)
           (snd (Mem.checkpointSequence (with_Checkpoint "SHARD_END" Mem.handle)
                   (Mem.store "W1" 0 None None)))
           None).
  - reflexivity.
  - reflexivity.
  - vm_compute; reflexivity.
  - vm_compute; reflexivity.
  - reflexivity.
  - reflexivity.
  - reflexivity.
  - apply Mem_checkpointSequence_ok. reflexivity.
Defined.

(** Position 49590 twice in a row on a valid lease. *)
Lemma Checkpoint_twice_succeeds_twice_witness :
  exists w1 w2,
    RecordProcessorCheckpointer_Checkpoint Mem.rc (Some "49590")
      (Mem.world "W1" 0 None None) = (Returns None, w1) /\
    Checkpoint <$> (heap w1 !! Mem.at_handle) = Some "49590" /\
    RecordProcessorCheckpointer_Checkpoint Mem.rc (Some "49590") w1 =
      (Returns None, w2) /\
    Checkpoint <$> (heap w2 !! Mem.at_handle) = Some "49590".
Proof.
  pose (s1 := snd (Mem.checkpointSequence (with_Checkpoint "49590" Mem.handle)
                     (Mem.store "W1" 0 None None))).
  apply (Checkpoint_twice_succeeds_twice
           Mem.rc Mem.at_handle Mem.ledger Mem.handle
           (Mem.world "W1" 0 None None) "49590" 0 0
           (Mem.store "W1" 0 None None) (Mem.store "W1" 0 None None) s1
           s1 s1
           (snd (Mem.checkpointSequence (with_Checkpoint "49590" Mem.handle) s1))).
  - reflexivity.
  - reflexivity.
  - vm_compute; reflexivity.
  - vm_compute; reflexivity.
  - reflexivity.
  - reflexivity.
  - apply Mem_checkpointSequence_ok. reflexivity.
  - vm_compute; reflexivity.
  - reflexivity.
  - reflexivity.
  - apply Mem_checkpointSequence_ok. reflexivity.
Defined.

(** * Further properties of the coordinator and the token *)

Section Further.
Context {Ext : Type} `{Imported Ext}.

(** Every run of [Checkpoint] on a live handle through a ledger returns,
    and takes one of two shapes: a guard stops it with an error after the
    owner query, or the handle is updated and handed to the ledger. *)
Lemma Checkpoint_cases
    (rc : RecordProcessorCheckpointer Ext) (l : loc) (c : Checkpointer Ext)
    (sh : ShardStatus) (w : World Ext) (p : option string) :
  shard rc = Some l ->
  checkpoint rc = Some c ->
  heap w !! l = Some sh ->
  exists r w',
    RecordProcessorCheckpointer_Checkpoint rc p w = (Returns r, w') /\
    ((r <> None /\ heap w' = heap w /\
      calls w' = calls w ++ [EvGetLeaseOwner (ID sh)]) \/
     (heap w' = <[l := with_Checkpoint (checkpoint_value p) sh]> (heap w) /\
      calls w' =
        calls w ++ [EvGetLeaseOwner (ID sh);
                    EvCheckpointSequence
                      (with_Checkpoint (checkpoint_value p) sh)])).
Proof.
  intros Hs Hc Hl.
  destruct (GetLeaseOwner c (ID sh) (ext w)) as [[owner [e|]] x1] eqn:Hq.
  - eexists _, _. split.
    + apply (Checkpoint_run_query_error rc l c sh w Hs Hc Hl p owner e x1 Hq).
    + left. cbn. split; [discriminate|]. split; reflexivity.
  - destruct (decide (AssignedTo sh = owner)) as [Heq|Hne].
    + subst owner.
      destruct (time_Now x1) as [now x2] eqn:Hn.
      destruct (decide (LeaseTimeout sh < now)) as [Hlt|Hge].
      * eexists _, _. split.
        -- apply (Checkpoint_run_expired rc l c sh w Hs Hc Hl p x1 now x2 Hq Hn Hlt).
        -- left. cbn. split; [discriminate|]. split; reflexivity.
      * destruct (CheckpointSequence c
                    (with_Checkpoint (checkpoint_value p) sh) x2)
          as [r x3] eqn:Hp.
        eexists _, _. split.
        -- apply (Checkpoint_run_persist rc l c sh w Hs Hc Hl p x1 now x2 r x3);
             [assumption | assumption | lia | exact Hp].
        -- right. cbn. split; reflexivity.
    + eexists _, _. split.
      * apply (Checkpoint_run_other_owner rc l c sh w Hs Hc Hl p owner x1 Hq Hne).
      * left. cbn. split; [discriminate|]. split; reflexivity.
Qed.

(** Redeeming a token that has a position and a coordinator is the
    coordinator's [Checkpoint] at the position's [SequenceNumber]. *)
Lemma Checkpoint_of_filled_token
    (rc : RecordProcessorCheckpointer Ext) (esn : ExtendedSequenceNumber)
    (w : World Ext) :
  PreparedCheckpointer_Checkpoint (mkPreparedCheckpointer (Some esn) (Some rc)) w =
  RecordProcessorCheckpointer_Checkpoint rc (SequenceNumber esn) w.
Proof.
  unfold PreparedCheckpointer_Checkpoint. go_unfold.
  destruct (RecordProcessorCheckpointer_Checkpoint rc (SequenceNumber esn) w)
    as [[r|q] w']; reflexivity.
Qed.

(** X1: a coordinator that [NewRecordProcessorCheckpoint] built on a nil
    shard, or on a nil ledger, panics with a nil dereference at
    [Checkpoint], for every position and in every world, before any ledger
    call and without touching a handle: the world is left as it was. *)
Theorem Checkpoint_on_nil_shard_or_nil_ledger_panics
    (l : option loc) (c : option (Checkpointer Ext)) (p : option string)
    (w : World Ext) :
  RecordProcessorCheckpointer_Checkpoint
    (NewRecordProcessorCheckpoint None c) p w = (Panics NilDereference, w) /\
  RecordProcessorCheckpointer_Checkpoint
    (NewRecordProcessorCheckpoint l None) p w = (Panics NilDereference, w).
Proof.
  split; [reflexivity|].
  unfold RecordProcessorCheckpointer_Checkpoint. go_unfold.
  destruct l as [a|]; cbn; [|reflexivity].
  destruct (heap w !! a); reflexivity.
Qed.

(** X2: on a live handle and through a ledger, a run of [Checkpoint]
    calls the ledger with one owner query first and at most one write after
    it, and the handle changes only together with a write.  Either no write
    is attempted, the heap is as it was and the result is not nil; or the
    one write is given the handle holding the new checkpoint value, which
    is the handle then in the heap. *)
Theorem Checkpoint_makes_one_query_then_at_most_one_persist
    (rc : RecordProcessorCheckpointer Ext) (l : loc) (c : Checkpointer Ext)
    (sh : ShardStatus) (w : World Ext) (p : option string) :
  shard rc = Some l ->
  checkpoint rc = Some c ->
  heap w !! l = Some sh ->
  exists rest,
    calls (snd (RecordProcessorCheckpointer_Checkpoint rc p w)) =
      calls w ++ EvGetLeaseOwner (ID sh) :: rest /\
    ((rest = [] /\
      heap (snd (RecordProcessorCheckpointer_Checkpoint rc p w)) = heap w /\
      fst (RecordProcessorCheckpointer_Checkpoint rc p w) <> Returns None) \/
     (rest =
        [EvCheckpointSequence (with_Checkpoint (checkpoint_value p) sh)] /\
      heap (snd (RecordProcessorCheckpointer_Checkpoint rc p w)) !! l =
        Some (with_Checkpoint (checkpoint_value p) sh))).
Proof.
  intros Hs Hc Hl.
  destruct (Checkpoint_cases rc l c sh w p Hs Hc Hl)
    as (r & w' & Hrun & [(Hr & Hheap & Hlog) | (Hheap & Hlog)]);
    rewrite Hrun; cbn.
  - exists []. split; [exact Hlog|]. left.
    split; [reflexivity|]. split; [exact Hheap|]. congruence.
  - exists [EvCheckpointSequence (with_Checkpoint (checkpoint_value p) sh)].
    split; [exact Hlog|]. right. split; [reflexivity|].
    rewrite Hheap. apply lookup_insert_eq.
Qed.

(** X3: a nil result is never a silent no-op.  When [Checkpoint] returns
    nil, the handle holds the new checkpoint value ([p], or [ShardEnd] for
    a nil position) and the ledger was asked exactly once to persist the
    handle so updated. *)
Theorem Checkpoint_nil_result_means_persisted
    (rc : RecordProcessorCheckpointer Ext) (l : loc) (c : Checkpointer Ext)
    (sh : ShardStatus) (w w' : World Ext) (p : option string) :
  shard rc = Some l ->
  checkpoint rc = Some c ->
  heap w !! l = Some sh ->
  RecordProcessorCheckpointer_Checkpoint rc p w = (Returns None, w') ->
  heap w' !! l = Some (with_Checkpoint (checkpoint_value p) sh) /\
  persisted_handles (calls w') =
    persisted_handles (calls w) ++ [with_Checkpoint (checkpoint_value p) sh].
Proof.
  intros Hs Hc Hl Hrun.
  destruct (Checkpoint_cases rc l c sh w p Hs Hc Hl)
    as (r & w1 & Hrun1 & Hshape).
  rewrite Hrun in Hrun1. injection Hrun1 as <- <-.
  destruct Hshape as [(Hr & _) | (Hheap & Hlog)]; [congruence|].
  rewrite Hheap, Hlog. split.
  - apply lookup_insert_eq.
  - apply persisted_handles_query_persist.
Qed.

(** X4: whatever [Checkpoint] returns, every other handle of the heap is
    left as it was, and the handle of the coordinator keeps its shard
    identifier, its owner and its lease timeout; its checkpoint value is
    the old one or the new one. *)
Theorem Checkpoint_changes_only_the_checkpoint_value
    (rc : RecordProcessorCheckpointer Ext) (l : loc) (c : Checkpointer Ext)
    (sh : ShardStatus) (w : World Ext) (p : option string) :
  shard rc = Some l ->
  checkpoint rc = Some c ->
  heap w !! l = Some sh ->
  (forall l' : loc,
     l' <> l ->
     heap (snd (RecordProcessorCheckpointer_Checkpoint rc p w)) !! l' =
     heap w !! l') /\
  exists sh',
    heap (snd (RecordProcessorCheckpointer_Checkpoint rc p w)) !! l = Some sh' /\
    ID sh' = ID sh /\
    AssignedTo sh' = AssignedTo sh /\
    LeaseTimeout sh' = LeaseTimeout sh /\
    (Checkpoint sh' = Checkpoint sh \/ Checkpoint sh' = checkpoint_value p).
Proof.
  intros Hs Hc Hl.
  destruct (Checkpoint_cases rc l c sh w p Hs Hc Hl)
    as (r & w' & Hrun & [(_ & Hheap & _) | (Hheap & _)]);
    rewrite Hrun; cbn; rewrite Hheap.
  - split; [reflexivity|]. exists sh. rewrite Hl. repeat split. left; reflexivity.
  - split.
    + intros l' Hne. apply lookup_insert_ne. congruence.
    + exists (with_Checkpoint (checkpoint_value p) sh).
      rewrite lookup_insert_eq. repeat split. right; reflexivity.
Qed.

(** X5: with the owner confirmed by the ledger, the lease check is strict:
    the ledger's write is attempted exactly when the current time is not
    after the lease timeout, the instant of the timeout included, and it is
    skipped exactly when the current time is after it. *)
Theorem Checkpoint_persists_iff_now_not_after_timeout
    (rc : RecordProcessorCheckpointer Ext) (l : loc) (c : Checkpointer Ext)
    (sh : ShardStatus) (w : World Ext) (p : option string)
    (now : Time) (x1 x2 : Ext) :
  shard rc = Some l ->
  checkpoint rc = Some c ->
  heap w !! l = Some sh ->
  GetLeaseOwner c (ID sh) (ext w) = ((AssignedTo sh, None), x1) ->
  time_Now x1 = (now, x2) ->
  (persisted_handles
     (calls (snd (RecordProcessorCheckpointer_Checkpoint rc p w))) =
   persisted_handles (calls w) ++ [with_Checkpoint (checkpoint_value p) sh]
   <-> now <= LeaseTimeout sh) /\
  (persisted_handles
     (calls (snd (RecordProcessorCheckpointer_Checkpoint rc p w))) =
   persisted_handles (calls w)
   <-> LeaseTimeout sh < now).
Proof.
  intros Hs Hc Hl Hq Hn.
  destruct (decide (LeaseTimeout sh < now)) as [Hlt|Hge].
  - rewrite (Checkpoint_run_expired rc l c sh w Hs Hc Hl p x1 now x2 Hq Hn Hlt).
    cbn. rewrite persisted_handles_query. split; split.
    + intros Habs. apply (f_equal length) in Habs.
      rewrite length_app in Habs. cbn in Habs. lia.
    + lia.
    + intros _. exact Hlt.
    + reflexivity.
  - destruct (CheckpointSequence c (with_Checkpoint (checkpoint_value p) sh) x2)
      as [r x3] eqn:Hp.
    rewrite (Checkpoint_run_persist rc l c sh w Hs Hc Hl p x1 now x2 r x3)
      by (assumption || lia).
    cbn. rewrite persisted_handles_query_persist. split; split.
    + intros _. lia.
    + reflexivity.
    + intros Habs. apply (f_equal length) in Habs.
      rewrite length_app in Habs. cbn in Habs. lia.
    + intros Hlt. contradiction.
Qed.

(** X6: the coordinator does not compare a position with the one already
    in the handle.  Two checkpoints in a row on a valid lease, at any two
    positions [p1] then [p2], both succeed; the handle ends with [p2] and
    the ledger was asked to persist [p1], then [p2]. *)
Theorem Checkpoint_last_position_wins
    (rc : RecordProcessorCheckpointer Ext) (l : loc) (c : Checkpointer Ext)
    (sh : ShardStatus) (w : World Ext) (p1 p2 : string)
    (now1 now2 : Time) (x1 x2 x3 x4 x5 x6 : Ext) :
  shard rc = Some l ->
  checkpoint rc = Some c ->
  heap w !! l = Some sh ->
  GetLeaseOwner c (ID sh) (ext w) = ((AssignedTo sh, None), x1) ->
  time_Now x1 = (now1, x2) ->
  now1 <= LeaseTimeout sh ->
  CheckpointSequence c (with_Checkpoint p1 sh) x2 = (None, x3) ->
  GetLeaseOwner c (ID sh) x3 = ((AssignedTo sh, None), x4) ->
  time_Now x4 = (now2, x5) ->
  now2 <= LeaseTimeout sh ->
  CheckpointSequence c (with_Checkpoint p2 sh) x5 = (None, x6) ->
  exists w1 w2,
    RecordProcessorCheckpointer_Checkpoint rc (Some p1) w = (Returns None, w1) /\
    RecordProcessorCheckpointer_Checkpoint rc (Some p2) w1 = (Returns None, w2) /\
    Checkpoint <$> (heap w2 !! l) = Some p2 /\
    persisted_handles (calls w2) =
      persisted_handles (calls w) ++
      [with_Checkpoint p1 sh; with_Checkpoint p2 sh].
Proof.
  intros Hs Hc Hl Hq1 Hn1 Hle1 Hp1 Hq2 Hn2 Hle2 Hp2.
  eexists. eexists. split.
  - apply (Checkpoint_run_persist rc l c sh w Hs Hc Hl (Some p1) x1 now1 x2 None x3);
      [assumption | assumption | assumption | exact Hp1].
  - split.
    + apply (Checkpoint_run_persist rc l c (with_Checkpoint p1 sh) _ Hs Hc
               (lookup_insert_eq _ _ _) (Some p2) x4 now2 x5 None x6);
        cbn; [assumption | assumption | assumption | exact Hp2].
    + cbn. rewrite lookup_insert_eq. split; [reflexivity|].
      rewrite !persisted_handles_query_persist.
      rewrite <- app_assoc. reflexivity.
Qed.

(** X7: a token whose position has a nil [SequenceNumber], whatever its
    sub-sequence number, is redeemed as the end of the shard: on a valid
    lease its [Checkpoint()] sets the handle's checkpoint value to
    [ShardEnd], hands the handle to the ledger's write and returns what the
    write answers. *)
Theorem Checkpoint_of_token_with_nil_SequenceNumber
    (rc : RecordProcessorCheckpointer Ext) (l : loc) (c : Checkpointer Ext)
    (sh : ShardStatus) (w : World Ext) (sub : Z)
    (now : Time) (x1 x2 x3 : Ext) (r : option error) :
  shard rc = Some l ->
  checkpoint rc = Some c ->
  heap w !! l = Some sh ->
  GetLeaseOwner c (ID sh) (ext w) = ((AssignedTo sh, None), x1) ->
  time_Now x1 = (now, x2) ->
  now <= LeaseTimeout sh ->
  CheckpointSequence c (with_Checkpoint ShardEnd sh) x2 = (r, x3) ->
  exists w',
    PreparedCheckpointer_Checkpoint
      (mkPreparedCheckpointer (Some (mkExtendedSequenceNumber None sub)) (Some rc))
      w = (Returns r, w') /\
    Checkpoint <$> (heap w' !! l) = Some ShardEnd /\
    persisted_handles (calls w') =
      persisted_handles (calls w) ++ [with_Checkpoint ShardEnd sh].
Proof.
  intros Hs Hc Hl Hq Hn Hle Hp.
  rewrite Checkpoint_of_filled_token. cbn.
  eexists. split.
  - apply (Checkpoint_run_persist rc l c sh w Hs Hc Hl None x1 now x2 r x3);
      [assumption | assumption | assumption | exact Hp].
  - cbn. rewrite lookup_insert_eq. split; [reflexivity|].
    apply persisted_handles_query_persist.
Qed.

(** X8: a token that lacks its position or its coordinator cannot be
    redeemed: its [Checkpoint()] panics with a nil dereference and leaves
    the world as it was, so that no ledger is called and no handle
    changes, even when the other field is in place. *)
Theorem Checkpoint_of_token_with_nil_field_panics
    (tok : PreparedCheckpointer Ext) (w : World Ext) :
  pendingCheckpointSequenceNumber tok = None \/ checkpointer tok = None ->
  PreparedCheckpointer_Checkpoint tok w = (Panics NilDereference, w).
Proof.
  destruct tok as [pending coordinator]. cbn.
  intros [-> | ->]; [reflexivity|].
  destruct pending; reflexivity.
Qed.

End Further.

(** ** Runs of the further properties on the in-memory ledger *)

(** A valid lease at time 0: the owner query, then the one write, which is
    given the handle holding 49590. *)
Lemma Checkpoint_makes_one_query_then_at_most_one_persist_witness :
  exists rest,
    calls (snd (RecordProcessorCheckpointer_Checkpoint Mem.rc (Some "49590")
                  (Mem.world "W1" 0 None None))) =
      calls (Mem.world "W1" 0 None None) ++
      EvGetLeaseOwner (ID Mem.handle) :: rest /\
    rest =
      [EvCheckpointSequence
         (with_Checkpoint (checkpoint_value (Some "49590")) Mem.handle)] /\
    heap (snd (RecordProcessorCheckpointer_Checkpoint Mem.rc (Some "49590")
                 (Mem.world "W1" 0 None None))) !! Mem.at_handle =
      Some (with_Checkpoint (checkpoint_value (Some "49590")) Mem.handle).
Proof.
  assert (Hlive : heap (Mem.world "W1" 0 None None) !! Mem.at_handle =
                  Some Mem.handle) by (vm_compute; reflexivity).
  destruct (Checkpoint_makes_one_query_then_at_most_one_persist
              Mem.rc Mem.at_handle Mem.ledger Mem.handle
              (Mem.world "W1" 0 None None) (Some "49590")
              eq_refl eq_refl Hlive)
    as (rest & Hlog & [(_ & _ & Hnot) | (Hrest & Hheap)]).
  - exfalso. apply Hnot. vm_compute. reflexivity.
  - exists rest. split; [exact Hlog|]. split; [exact Hrest | exact Hheap].
Defined.

(** A nil result at position 49590: the handle and the ledger both have it. *)
Lemma Checkpoint_nil_result_means_persisted_witness :
  heap (snd (RecordProcessorCheckpointer_Checkpoint Mem.rc (Some "49590")
               (Mem.world "W1" 0 None None))) !! Mem.at_handle =
    Some (with_Checkpoint (checkpoint_value (Some "49590")) Mem.handle) /\
  persisted_handles
    (calls (snd (RecordProcessorCheckpointer_Checkpoint Mem.rc (Some "49590")
                   (Mem.world "W1" 0 None None)))) =
    persisted_handles (calls (Mem.world "W1" 0 None None)) ++
    [with_Checkpoint (checkpoint_value (Some "49590")) Mem.handle].
Proof.
  apply (Checkpoint_nil_result_means_persisted
           Mem.rc Mem.at_handle Mem.ledger Mem.handle
           (Mem.world "W1" 0 None None)
           (snd (RecordProcessorCheckpointer_Checkpoint Mem.rc (Some "49590")
                   (Mem.world "W1" 0 None None)))
           (Some "49590")).
  - reflexivity.
  - reflexivity.
  - vm_compute; reflexivity.
  - vm_compute; reflexivity.
Defined.

(** Two shards on the heap: a checkpoint on the first leaves the second,
    held by [W2], as it was. *)
Lemma Checkpoint_changes_only_the_checkpoint_value_witness :
  (forall l' : loc,
     l' <> Mem.at_handle ->
     heap (snd (RecordProcessorCheckpointer_Checkpoint Mem.rc (Some "49590")
                  (mkWorld
                     (<[2%positive := mkShardStatus "shardId-1" "W2" 7000 "17"]>
                        {[ Mem.at_handle := Mem.handle ]})
                     (Mem.store "W1" 0 None None) []))) !! l' =
     heap (mkWorld
             (<[2%positive := mkShardStatus "shardId-1" "W2" 7000 "17"]>
                {[ Mem.at_handle := Mem.handle ]})
             (Mem.store "W1" 0 None None) []) !! l') /\
  exists sh',
    heap (snd (RecordProcessorCheckpointer_Checkpoint Mem.rc (Some "49590")
                 (mkWorld
                    (<[2%positive := mkShardStatus "shardId-1" "W2" 7000 "17"]>
                       {[ Mem.at_handle := Mem.handle ]})
                    (Mem.store "W1" 0 None None) []))) !! Mem.at_handle =
      Some sh' /\
    ID sh' = ID Mem.handle /\
    AssignedTo sh' = AssignedTo Mem.handle /\
    LeaseTimeout sh' = LeaseTimeout Mem.handle /\
    (Checkpoint sh' = Checkpoint Mem.handle \/
     Checkpoint sh' = checkpoint_value (Some "49590")).
Proof.
  apply (Checkpoint_changes_only_the_checkpoint_value
           Mem.rc Mem.at_handle Mem.ledger Mem.handle
           (mkWorld
              (<[2%positive := mkShardStatus "shardId-1" "W2" 7000 "17"]>
                 {[ Mem.at_handle := Mem.handle ]})
              (Mem.store "W1" 0 None None) [])
           (Some "49590")).
  - reflexivity.
  - reflexivity.
  - vm_compute; reflexivity.
Defined.

(** At the instant of the timeout, 5000, the write is attempted. *)
Lemma Checkpoint_persists_iff_now_not_after_timeout_witness :
  (persisted_handles
     (calls (snd (RecordProcessorCheckpointer_Checkpoint Mem.rc (Some "49590")
                    (Mem.world "W1" 5000 None None)))) =
   persisted_handles (calls (Mem.world "W1" 5000 None None)) ++
   [with_Checkpoint (checkpoint_value (Some "49590")) Mem.handle]
   <-> 5000 <= LeaseTimeout Mem.handle) /\
  (persisted_handles
     (calls (snd (RecordProcessorCheckpointer_Checkpoint Mem.rc (Some "49590")
                    (Mem.world "W1" 5000 None None)))) =
   persisted_handles (calls (Mem.world "W1" 5000 None None))
   <-> LeaseTimeout Mem.handle < 5000).
Proof.
  apply (Checkpoint_persists_iff_now_not_after_timeout
           Mem.rc Mem.at_handle Mem.ledger Mem.handle
           (Mem.world "W1" 5000 None None) (Some "49590") 5000
           (Mem.store "W1" 5000 None None) (Mem.store "W1" 5000 None None)).
  - reflexivity.
  - reflexivity.
  - vm_compute; reflexivity.
  - vm_compute; reflexivity.
  - reflexivity.
Defined.

(** Position 49590, then the earlier position 100: the handle goes back. *)
Lemma Checkpoint_last_position_wins_witness :
  exists w1 w2,
    RecordProcessorCheckpointer_Checkpoint Mem.rc (Some "49590")
      (Mem.world "W1" 0 None None) = (Returns None, w1) /\
    RecordProcessorCheckpointer_Checkpoint Mem.rc (Some "100") w1 =
      (Returns None, w2) /\
    Checkpoint <$> (heap w2 !! Mem.at_handle) = Some "100" /\
    persisted_handles (calls w2) =
      persisted_handles (calls (Mem.world "W1" 0 None None)) ++
      [with_Checkpoint "49590" Mem.handle; with_Checkpoint "100" Mem.handle].
Proof.
  pose (s1 := snd (Mem.checkpointSequence (with_Checkpoint "49590" Mem.handle)
                     (Mem.store "W1" 0 None None))).
  apply (Checkpoint_last_position_wins
           Mem.rc Mem.at_handle Mem.ledger Mem.handle
           (Mem.world "W1" 0 None None) "49590" "100" 0 0
           (Mem.store "W1" 0 None None) (Mem.store "W1" 0 None None) s1
           s1 s1
           (snd (Mem.checkpointSequence (with_Checkpoint "100" Mem.handle) s1))).
  - reflexivity.
  - reflexivity.
  - vm_compute; reflexivity.
  - vm_compute; reflexivity.
  - reflexivity.
  - discriminate.
  - apply Mem_checkpointSequence_ok. reflexivity.
  - vm_compute; reflexivity.
  - reflexivity.
  - discriminate.
  - apply Mem_checkpointSequence_ok. reflexivity.
Defined.

(** A token with a position of sub-sequence number 7 and no sequence
    number, redeemed on a valid lease. *)
Lemma Checkpoint_of_token_with_nil_SequenceNumber_witness :
  exists w',
    PreparedCheckpointer_Checkpoint
      (mkPreparedCheckpointer (Some (mkExtendedSequenceNumber None 7))
         (Some Mem.rc))
      (Mem.world "W1" 0 None None) = (Returns None, w') /\
    Checkpoint <$> (heap w' !! Mem.at_handle) = Some ShardEnd /\
    persisted_handles (calls w') =
      persisted_handles (calls (Mem.world "W1" 0 None None)) ++
      [with_Checkpoint ShardEnd Mem.handle].
Proof.
  apply (Checkpoint_of_token_with_nil_SequenceNumber
           Mem.rc Mem.at_handle Mem.ledger Mem.handle
           (Mem.world "W1" 0 None None) 7 0
           (Mem.store "W1" 0 None None) (Mem.store "W1" 0 None None)
           (snd (Mem.checkpointSequence (with_Checkpoint ShardEnd Mem.handle)
                   (Mem.store "W1" 0 None None)))
           None).
  - reflexivity.
  - reflexivity.
  - vm_compute; reflexivity.
  - vm_compute; reflexivity.
  - reflexivity.
  - discriminate.
  - apply Mem_checkpointSequence_ok. reflexivity.
Defined.

(** A token with a valid coordinator and no position. *)
Lemma Checkpoint_of_token_with_nil_field_panics_witness :
  PreparedCheckpointer_Checkpoint (mkPreparedCheckpointer None (Some Mem.rc))
    (Mem.world "W1" 0 None None) =
  (Panics NilDereference, Mem.world "W1" 0 None None).
Proof.
  apply (Checkpoint_of_token_with_nil_field_panics
           (mkPreparedCheckpointer None (Some Mem.rc))
           (Mem.world "W1" 0 None None)).
  left. reflexivity.
Defined.
